(** * deerma.humidifier.jsq2w / jsq2g: the MIoT facade and its status projection

    A shallow embedding of
    [miio/integrations/deerma/humidifier/airhumidifier_jsqs.py]
    (with the exception hierarchy of [miio/exceptions.py]) and the
    properties of the facade, of the mapping table and of the status
    projection that the specification states about it. *)

From Stdlib Require Import ZArith Lia.
From stdpp Require Import gmap strings list fin_maps pretty.

Local Open Scope string_scope.
Local Open Scope list_scope.
Local Open Scope Z_scope.

(* ===================================================================== *)
(** ** Python values, exceptions and outcomes *)
(* ===================================================================== *)

(** The values a property of this device decodes to.  Every entry of
    [_MAPPING] is declared [bool] or an integer range or enumeration in
    the source; [None] is what the projection stores for an errored
    property. *)
Inductive pyval : Type :=
| PyNone
| PyBool (b : bool)
| PyInt (z : Z).

#[global] Instance pyval_eq_dec : EqDecision pyval.
Proof. solve_decision. Defined.

(** [bool(v)], as the conditional expression of [power] evaluates it. *)
Definition truthy (v : pyval) : bool :=
  match v with
  | PyNone => false
  | PyBool b => b
  | PyInt z => negb (z =? 0)
  end.

(** [repr(v)], as [%r] and [%s] print these values. *)
Definition py_repr (v : pyval) : string :=
  match v with
  | PyNone => "None"
  | PyBool true => "True"
  | PyBool false => "False"
  | PyInt z => pretty z
  end.

(** Python's numeric view of a value: [True == 1], [False == 0], and
    [hash] agrees, so a dict keyed by integers finds a bool. *)
Definition py_number (v : pyval) : option Z :=
  match v with
  | PyNone => None
  | PyBool b => Some (if b then 1 else 0)
  | PyInt z => Some z
  end.

(** The exceptions that reach the caller of the facade: the built-in
    ones the module raises itself and the classes of [exceptions.py]. *)
Inductive PyExc : Type :=
| ValueError (msg : string)
| KeyError (key : string)
| DeviceException (msg : string)
| InvalidTokenException (msg : string)
| PayloadDecodeException (msg : string)
| DeviceInfoUnavailableException (msg : string)
| DeviceError (code : Z) (message : string)
| RecoverableError (code : Z) (message : string)
| UnsupportedFeatureException (msg : string).

(** [str(e)]. *)
Definition exc_str (e : PyExc) : string :=
  match e with
  | ValueError m | DeviceException m | InvalidTokenException m
  | PayloadDecodeException m | DeviceInfoUnavailableException m
  | UnsupportedFeatureException m => m
  | KeyError k => "'" +:+ k +:+ "'"
  | DeviceError _ m | RecoverableError _ m => m
  end.

Inductive Outcome (A : Type) : Type :=
| Ok (a : A)
| Raised (e : PyExc).
Arguments Ok {A} a.
Arguments Raised {A} e.

Definition is_ok {A} (o : Outcome A) : bool :=
  match o with Ok _ => true | Raised _ => false end.

(** [d[k]] raises [KeyError]; [d.get(k)] answers [None]. *)
Definition dict_getitem (d : gmap string pyval) (k : string) : Outcome pyval :=
  match d !! k with
  | Some v => Ok v
  | None => Raised (KeyError k)
  end.

Definition dict_get (d : gmap string pyval) (k : string) : pyval :=
  default PyNone (d !! k).

(** A dict display or comprehension evaluates its items left to right
    and stores each; a repeated key keeps the value stored last. *)
Definition dict_of_items {V} (items : list (string * V)) : gmap string V :=
  foldl (fun d kv => <[kv.1 := kv.2]> d) ∅ items.

(* ===================================================================== *)
(** ** The mapping table *)
(* ===================================================================== *)

Record PropertyRef : Type := mkRef { siid : Z; piid : Z }.

#[global] Instance PropertyRef_eq_dec : EqDecision PropertyRef.
Proof. solve_decision. Defined.

(** The items of the [_MAPPING] display, in source order. *)
Definition _MAPPING_items : list (string * PropertyRef) :=
  [ ("power",                mkRef 2 1);
    ("fault",                mkRef 2 2);
    ("fan_level",            mkRef 2 5);
    ("target_humidity",      mkRef 2 6);
    ("status",               mkRef 2 7);
    ("mode",                 mkRef 2 8);
    ("relative_humidity",    mkRef 3 1);
    ("temperature",          mkRef 3 7);
    ("buzzer",               mkRef 5 1);
    ("led_light",            mkRef 6 1);
    ("tank_filed",           mkRef 7 1);
    ("water_shortage_fault", mkRef 7 2);
    ("humi_sensor_fault",    mkRef 7 3);
    ("temp_sensor_fault",    mkRef 7 4);
    ("overwet_protect",      mkRef 7 5);
    ("overwet_protect_on",   mkRef 7 6);
    ("overtop_humidity",     mkRef 7 7);
    ("overtop_humidity",     mkRef 7 8) ].

Definition _MAPPING : gmap string PropertyRef := dict_of_items _MAPPING_items.

Definition SUPPORTED_MODELS : list string :=
  [ "deerma.humidifier.jsq2w"; "deerma.humidifier.jsq2g" ].

(** [{model: _MAPPING for model in SUPPORTED_MODELS}] *)
Definition MIOT_MAPPING : gmap string (gmap string PropertyRef) :=
  dict_of_items ((fun model => (model, _MAPPING)) <$> SUPPORTED_MODELS).

(** Modelled from the spec: [MiotDevice.get_properties_for_mapping]
    (of [miot_device.py]) is missing; the specification has the client
    request "the full configured table" on a status call.  The request
    is one addressed entry per name of the table. *)
Definition status_request (table : gmap string PropertyRef)
  : list (string * PropertyRef) :=
  map_to_list table.

(* ===================================================================== *)
(** ** OperationMode *)
(* ===================================================================== *)

Inductive OperationMode : Type := Low | Mid | High | Auto.

#[global] Instance OperationMode_eq_dec : EqDecision OperationMode.
Proof. solve_decision. Defined.

Definition OperationMode_members : list OperationMode := [Low; Mid; High; Auto].

Definition OperationMode_value (m : OperationMode) : Z :=
  match m with Low => 1 | Mid => 2 | High => 3 | Auto => 4 end.

(** [OperationMode(v)]: the member whose value equals [v], and
    [ValueError] when there is none. *)
Definition OperationMode_call (v : pyval) : Outcome OperationMode :=
  match py_number v ≫= (fun z =>
          find (fun m => OperationMode_value m =? z) OperationMode_members) with
  | Some m => Ok m
  | None => Raised (ValueError (py_repr v +:+ " is not a valid OperationMode"))
  end.

(* ===================================================================== *)
(** ** Logging *)
(* ===================================================================== *)

Inductive LogLevel : Type := DEBUG | INFO | WARNING | ERROR.

(** What [_LOGGER.exception(fmt, e)] hands to the logger: a record at
    level ERROR, the formatted message and the exception in flight. *)
Record LogRecord : Type := mkLog {
  levelname : LogLevel;
  message : string;
  exc_info : option PyExc
}.

Definition logger_exception (prefix : string) (e : PyExc) : LogRecord :=
  mkLog ERROR (prefix +:+ exc_str e) (Some e).

(* ===================================================================== *)
(** ** AirHumidifierJsqsStatus *)
(* ===================================================================== *)

(** One entry of the list [get_properties_for_mapping] answers with:
    the dict [{"did": .., "code": .., "value": ..}]. *)
Record PropertyResult : Type := mkProp {
  did : string;
  code : Z;
  value : pyval
}.

(** What an accessor hands back: a raw value, a [str] or an enum member. *)
Inductive PyObj : Type :=
| OVal (v : pyval)
| OStr (s : string)
| OMode (m : OperationMode).

Module AirHumidifierJsqsStatus.

Record t : Type := mk { data : gmap string pyval }.

Definition is_on (self : t) : Outcome pyval :=
  dict_getitem (data self) "power".

Definition power (self : t) : Outcome string :=
  match is_on self with
  | Ok v => Ok (if truthy v then "on" else "off")
  | Raised e => Raised e
  end.

Definition error (self : t) : Outcome pyval :=
  dict_getitem (data self) "fault".

(** The accessor answers together with the records it logged. *)
Definition fan_level (self : t) : Outcome OperationMode * list LogRecord :=
  match dict_getitem (data self) "fan_level" with
  | Raised e => (Raised e, [])
  | Ok raw =>
      match OperationMode_call raw with
      | Ok fan_level => (Ok fan_level, [])
      | Raised (ValueError _ as e) =>
          (Ok Auto, [logger_exception "Cannot parse fan level: " e])
      | Raised e => (Raised e, [])
      end
  end.

Definition target_humidity (self : t) : pyval := dict_get (data self) "target_humidity".
Definition relative_humidity (self : t) : pyval := dict_get (data self) "relative_humidity".
Definition temperature (self : t) : pyval := dict_get (data self) "temperature".
Definition buzzer (self : t) : pyval := dict_get (data self) "buzzer".
Definition led_light (self : t) : pyval := dict_get (data self) "led_light".
Definition tank_filed (self : t) : pyval := dict_get (data self) "tank_filed".
Definition water_shortage_fault (self : t) : pyval := dict_get (data self) "water_shortage_fault".
Definition humi_sensor_fault (self : t) : pyval := dict_get (data self) "humi_sensor_fault".
Definition overwet_protect (self : t) : pyval := dict_get (data self) "overwet_protect".
Definition overwet_protect_on (self : t) : pyval := dict_get (data self) "overwet_protect_on".
Definition overtop_humidity (self : t) : pyval := dict_get (data self) "overtop_humidity".
Definition temp_sensor_fault (self : t) : pyval := dict_get (data self) "temp_sensor_fault".

(** The properties of the class, by name. *)
Inductive accessor : Type :=
| Is_on | Power | Error | Fan_level
| Target_humidity | Relative_humidity | Temperature | Buzzer | Led_light
| Tank_filed | Water_shortage_fault | Humi_sensor_fault | Overwet_protect
| Overwet_protect_on | Overtop_humidity | Temp_sensor_fault.

Definition accessors : list accessor :=
  [ Is_on; Power; Error; Fan_level; Target_humidity; Relative_humidity;
    Temperature; Buzzer; Led_light; Tank_filed; Water_shortage_fault;
    Humi_sensor_fault; Overwet_protect; Overwet_protect_on;
    Overtop_humidity; Temp_sensor_fault ].

(** [getattr(self, a)]: what evaluating the property gives and logs. *)
Definition getattr (a : accessor) (self : t) : Outcome PyObj * list LogRecord :=
  let raw (o : Outcome pyval) : Outcome PyObj * list LogRecord :=
    (match o with Ok v => Ok (OVal v) | Raised e => Raised e end, []) in
  match a with
  | Is_on => raw (is_on self)
  | Power =>
      (match power self with Ok s => Ok (OStr s) | Raised e => Raised e end, [])
  | Error => raw (error self)
  | Fan_level =>
      let '(o, logged) := fan_level self in
      (match o with Ok m => Ok (OMode m) | Raised e => Raised e end, logged)
  | Target_humidity => raw (Ok (target_humidity self))
  | Relative_humidity => raw (Ok (relative_humidity self))
  | Temperature => raw (Ok (temperature self))
  | Buzzer => raw (Ok (buzzer self))
  | Led_light => raw (Ok (led_light self))
  | Tank_filed => raw (Ok (tank_filed self))
  | Water_shortage_fault => raw (Ok (water_shortage_fault self))
  | Humi_sensor_fault => raw (Ok (humi_sensor_fault self))
  | Overwet_protect => raw (Ok (overwet_protect self))
  | Overwet_protect_on => raw (Ok (overwet_protect_on self))
  | Overtop_humidity => raw (Ok (overtop_humidity self))
  | Temp_sensor_fault => raw (Ok (temp_sensor_fault self))
  end.

(** The key of [data] the body of each property reads. *)
Definition key_of (a : accessor) : string :=
  match a with
  | Is_on | Power => "power"
  | Error => "fault"
  | Fan_level => "fan_level"
  | Target_humidity => "target_humidity"
  | Relative_humidity => "relative_humidity"
  | Temperature => "temperature"
  | Buzzer => "buzzer"
  | Led_light => "led_light"
  | Tank_filed => "tank_filed"
  | Water_shortage_fault => "water_shortage_fault"
  | Humi_sensor_fault => "humi_sensor_fault"
  | Overwet_protect => "overwet_protect"
  | Overwet_protect_on => "overwet_protect_on"
  | Overtop_humidity => "overtop_humidity"
  | Temp_sensor_fault => "temp_sensor_fault"
  end.

End AirHumidifierJsqsStatus.

(** The "unavailable" answer of an accessor: [None], nothing logged. *)
Definition unavailable : Outcome PyObj * list LogRecord := (Ok (OVal PyNone), []).

(** The dict comprehension of [status]:
    [{prop["did"]: prop["value"] if prop["code"] == 0 else None for prop in ..}] *)
Definition projected (prop : PropertyResult) : pyval :=
  if code prop =? 0 then value prop else PyNone.

Definition project (props : list PropertyResult) : gmap string pyval :=
  dict_of_items ((fun prop => (did prop, projected prop)) <$> props).

(* ===================================================================== *)
(** ** The client and the facade *)
(* ===================================================================== *)

(** The two methods of [MiotDevice] the facade calls.  Both talk to the
    device: they run in a world [W] they may change, and they may raise.
    [Resp] is whatever [set_property] answers with. *)
Class MiotDevice (W Resp : Type) : Type := {
  get_properties_for_mapping : W → Outcome (list PropertyResult) * W;
  set_property : string → pyval → W → Outcome Resp * W
}.

(** The calls made on the client, in the order they were made. *)
Inductive ClientCall : Type :=
| GetPropertiesForMapping
| SetProperty (property_key : string) (v : pyval).

Record St (W : Type) : Type := mkSt { world : W; calls : list ClientCall }.
Arguments mkSt {W} world calls.
Arguments world {W} s.
Arguments calls {W} s.

(** Computations of the facade: state passing over the world and the
    record of client calls, with exceptions. *)
Definition M (W A : Type) : Type := St W → Outcome A * St W.

Definition ret {W A} (a : A) : M W A := fun s => (Ok a, s).

Definition raise {W A} (e : PyExc) : M W A := fun s => (Raised e, s).


#[global] Instance M_ret {W} : MRet (M W) := fun A => @ret W A.

Module AirHumidifierJsqs.
Section WithDevice.
Context {W Resp : Type} `{!MiotDevice W Resp}.


Definition self_set_property (property_key : string) (v : pyval) : M W Resp :=
  fun s =>
    let '(r, w') := set_property property_key v (world s) in
    (r, mkSt w' (calls s ++ [SetProperty property_key v])).


Definition on : M W Resp := self_set_property "power" (PyBool true).

Definition off : M W Resp := self_set_property "power" (PyBool false).

Definition set_target_humidity (humidity : Z) : M W Resp :=
  if (humidity <=? 40) || (humidity >=? 70) then
    raise (ValueError ("Invalid target humidity: " +:+ pretty humidity
                       +:+ ". Must be between 40 and 70"))
  else self_set_property "target_humidity" (PyInt humidity).

Definition set_fan_level (fan_level : OperationMode) : M W Resp :=
  self_set_property "fan_level" (PyInt (OperationMode_value fan_level)).

Definition set_light (light : bool) : M W Resp :=
  self_set_property "led_light" (PyBool light).

Definition set_buzzer (buzzer : bool) : M W Resp :=
  self_set_property "buzzer" (PyBool buzzer).

Definition set_overwet_protect (overwet : bool) : M W Resp :=
  self_set_property "overwet_protect" (PyBool overwet).

Definition set_overwet_protect_on (overwet_protect_on : bool) : M W Resp :=
  self_set_property "overwet_protect_on" (PyBool overwet_protect_on).

(** The set operations of the facade, as one type. *)
Inductive operation : Type :=
| Op_on
| Op_off
| Op_set_target_humidity (humidity : Z)
| Op_set_fan_level (fan_level : OperationMode)
| Op_set_light (light : bool)
| Op_set_buzzer (buzzer : bool)
| Op_set_overwet_protect (overwet : bool)
| Op_set_overwet_protect_on (overwet_protect_on : bool).

Definition invoke (op : operation) : M W Resp :=
  match op with
  | Op_on => on
  | Op_off => off
  | Op_set_target_humidity h => set_target_humidity h
  | Op_set_fan_level m => set_fan_level m
  | Op_set_light b => set_light b
  | Op_set_buzzer b => set_buzzer b
  | Op_set_overwet_protect b => set_overwet_protect b
  | Op_set_overwet_protect_on b => set_overwet_protect_on b
  end.

(** [m] hands [k], [v] to the client once and answers what the
    client answers: its result or its exception, and its world. *)
Definition delegates_once (m : M W Resp) (k : string) (v : pyval) : Prop :=
  ∀ s : St W,
    (m s).1 = (set_property k v (world s)).1
    ∧ world (m s).2 = (set_property k v (world s)).2
    ∧ calls (m s).2 = calls s ++ [SetProperty k v].

(** [m] raises [e] and leaves the world and the record of calls alone. *)
Definition fails_before_client (m : M W Resp) (e : PyExc) : Prop :=
  ∀ s : St W, m s = (Raised e, s).

End WithDevice.
End AirHumidifierJsqs.

(** The names the facade's set operations pass to [set_property]. *)
Definition facade_names : list string :=
  [ "power"; "target_humidity"; "fan_level"; "led_light"; "buzzer";
    "overwet_protect"; "overwet_protect_on" ].

(* ===================================================================== *)
(** ** A device simulated in memory *)
(* ===================================================================== *)

(** A stand-in for the device, to run the facade on examples.  Its world
    is the stored value of each property.  [set_property] looks the name
    up in the table (a [KeyError] for a name it lacks) and stores the
    value; [get_properties_for_mapping] answers one result per name of
    the table: code 0 and the value where one is stored, and the MIoT
    code -4001 with no value where none is. *)
Module SimDevice.

Definition world : Type := gmap string pyval.

Definition read_one (w : world) (name : string) : PropertyResult :=
  match w !! name with
  | Some v => mkProp name 0 v
  | None => mkProp name (-4001) PyNone
  end.

#[global] Instance device : MiotDevice world (list (string * Z)) := {
  get_properties_for_mapping w :=
    (Ok (read_one w <$> (status_request _MAPPING).*1), w);
  set_property name v w :=
    match _MAPPING !! name with
    | Some _ => (Ok [(name, 0)], <[name := v]> w)
    | None => (Raised (KeyError name), w)
    end
}.

Definition start : St world := mkSt (∅ : world) [].

End SimDevice.

(** What a set operation may hand to the client, by the types and ranges
    the comments of [_MAPPING] declare: a bool for the five switches, an
    integer of 1..4 for "fan_level", an integer for "target_humidity"
    that the guard of [set_target_humidity] lets through. *)
Definition sendable (name : string) (v : pyval) : Prop :=
  match v with
  | PyNone => False
  | PyBool _ =>
      name ∈ ["power"; "led_light"; "buzzer"; "overwet_protect"; "overwet_protect_on"]
  | PyInt z =>
      (name = "fan_level" ∧ 1 ≤ z ≤ 4) ∨ (name = "target_humidity" ∧ 40 < z < 70)
  end.

(* ===================================================================== *)
(** ** miio/exceptions.py *)
(* ===================================================================== *)

Module MiioExceptions.

(** The classes of the module, and the built-in [Exception] they
    derive from. *)
Inductive cls : Type :=
| Exception
| DeviceException
| InvalidTokenException
| PayloadDecodeException
| DeviceInfoUnavailableException
| DeviceError
| RecoverableError
| UnsupportedFeatureException
| CloudException.

#[global] Instance cls_eq_dec : EqDecision cls.
Proof. solve_decision. Defined.

Definition classes : list cls :=
  [ Exception; DeviceException; InvalidTokenException; PayloadDecodeException;
    DeviceInfoUnavailableException; DeviceError; RecoverableError;
    UnsupportedFeatureException; CloudException ].

(** The base each class statement names. *)
Definition base (c : cls) : option cls :=
  match c with
  | Exception => None
  | DeviceException => Some Exception
  | InvalidTokenException => Some DeviceException
  | PayloadDecodeException => Some DeviceException
  | DeviceInfoUnavailableException => Some DeviceException
  | DeviceError => Some DeviceException
  | RecoverableError => Some DeviceError
  | UnsupportedFeatureException => Some DeviceException
  | CloudException => Some Exception
  end.

(** The class and the chain of its bases (single inheritance: the
    method resolution order, up to [Exception]). *)
Fixpoint ancestors (fuel : nat) (c : cls) : list cls :=
  c :: match fuel, base c with
       | S fuel', Some b => ancestors fuel' b
       | _, _ => []
       end.

Definition mro (c : cls) : list cls := ancestors (length classes) c.

Definition issubclass (c d : cls) : bool := bool_decide (d ∈ mro c).

(** Whether [except handler:] catches an exception of class [raised]. *)
Definition catches (handler raised : cls) : bool := issubclass raised handler.

Section DeviceErrorInit.
Context {V : Type} (none : V).

(** The two attributes [DeviceError.__init__] sets. *)
Record DeviceError_attrs : Type := mkDeviceError { code : V; message : V }.

(** [DeviceError(error)]: [error.get("code")] and [error.get("message")],
    with [none] for Python's [None]. *)
Definition DeviceError_init (error : gmap string V) : DeviceError_attrs :=
  {| code := default none (error !! "code");
     message := default none (error !! "message") |}.

End DeviceErrorInit.

End MiioExceptions.

(* ===================================================================== *)
(** ** miio/__init__.py: the module-level [__getattr__] *)
(* ===================================================================== *)

Module MiioInit.

(** What [__getattr__] looks at in an object bound in the module's
    globals: [str(o)], [bool(o)] and [o.__name__] where it has one. *)
Record PyObject : Type := mkObj {
  obj_str : string;
  obj_bool : bool;
  obj_name : option string
}.

#[global] Instance PyObject_eq_dec : EqDecision PyObject.
Proof. solve_decision. Defined.

(** [s.startswith(p)] and [needle in hay] on [str]. *)
Fixpoint startswith (s p : string) : bool :=
  match p, s with
  | EmptyString, _ => true
  | String c p', String d s' => bool_decide (c = d) && startswith s' p'
  | String _ _, EmptyString => false
  end.

Fixpoint str_contains (needle hay : string) : bool :=
  startswith hay needle
  || match hay with
     | EmptyString => false
     | String _ rest => str_contains needle rest
     end.

(** The call [warn(f"Importing {name} directly from 'miio' is deprecated,
    import {new_module} or use DeviceFactory.create() instead",
    DeprecationWarning)], by the two values its message interpolates. *)
Record DeprecationWarning : Type := mkWarn {
  importing : string;
  new_module : PyObject
}.

(** How a call of [__getattr__] ends: it returns an object, it raises
    its own [AttributeError] for [name], [new_module.__name__] raises
    for an object without the attribute, or [globals()[..]] raises
    [KeyError]. *)
Inductive outcome : Type :=
| Returned (o : PyObject)
| AttributeError (name : string)
| NoNameAttribute (o : PyObject)
| GlobalsKeyError (key : string).

(** [_is_miio_integration(x)], closed over [current_globals]; [None]
    stands for the [KeyError] of [current_globals[x]]. *)
Definition _is_miio_integration (current_globals : gmap string PyObject)
    (x : string) : option bool :=
  module_ ← current_globals !! x;
  Some (str_contains "miio.integrations" (obj_str module_)).

(** [{str(x): current_globals[x] for x in current_globals
      if _is_miio_integration(x)}] *)
Definition deprecated_module_mapping (current_globals : gmap string PyObject)
  : gmap string PyObject :=
  filter (fun item => _is_miio_integration current_globals item.1 = Some true)
         current_globals.

Definition __getattr__ (globals : gmap string PyObject) (name : string)
  : outcome * list DeprecationWarning :=
  match deprecated_module_mapping globals !! name with
  | Some new_module =>
      if obj_bool new_module then
        let warned := [mkWarn name new_module] in
        match obj_name new_module with
        | Some n =>
            match globals !! n with
            | Some o => (Returned o, warned)
            | None => (GlobalsKeyError n, warned)
            end
        | None => (NoNameAttribute new_module, warned)
        end
      else (AttributeError name, [])
  | None => (AttributeError name, [])
  end.

End MiioInit.

Import AirHumidifierJsqsStatus AirHumidifierJsqs.

(** Unfold an accessor down to its lookup in [data] and read it with [H]. *)
Ltac read_accessor H :=
  unfold getattr, unavailable, is_on, power, is_on, error, fan_level,
    target_humidity, relative_humidity, temperature, buzzer, led_light,
    tank_filed, water_shortage_fault, humi_sensor_fault, overwet_protect,
    overwet_protect_on, overtop_humidity, temp_sensor_fault,
    dict_get, dict_getitem;
  cbn [key_of] in H; rewrite H; cbn [default].

(** A name against the names of a literal list. *)
Ltac not_in_names :=
  rewrite list_elem_of_In; cbn; intuition discriminate.

(* ===================================================================== *)
(** ** Facts about dict construction and the projection *)
(* ===================================================================== *)

Section DictOfItems.
Context {V : Type}.
Implicit Types (items pre post : list (string * V)) (k : string) (v : V).

Lemma dict_of_items_snoc items k v :
  dict_of_items (items ++ [(k, v)]) = <[k := v]> (dict_of_items items).
Proof. unfold dict_of_items. by rewrite foldl_app. Qed.

(** A key no item carries is absent. *)
Lemma dict_of_items_lookup_None items k :
  k ∉ items.*1 → dict_of_items items !! k = None.
Proof.
  induction items as [|[k' v'] items IH] using rev_ind; intros Hk.
  - apply lookup_empty.
  - rewrite fmap_app, elem_of_app in Hk. cbn in Hk.
    rewrite dict_of_items_snoc, lookup_insert_ne.
    + apply IH. tauto.
    + intros ->. apply Hk. right. apply list_elem_of_here.
Qed.

(** The item stored last under a key is the one found. *)
Lemma dict_of_items_lookup_last pre post k v :
  k ∉ post.*1 → dict_of_items (pre ++ (k, v) :: post) !! k = Some v.
Proof.
  induction post as [|[k' v'] post IH] using rev_ind; intros Hk.
  - rewrite dict_of_items_snoc. apply lookup_insert_eq.
  - rewrite fmap_app, elem_of_app in Hk. cbn in Hk.
    replace (pre ++ (k, v) :: post ++ [(k', v')])
      with ((pre ++ (k, v) :: post) ++ [(k', v')])
      by (by rewrite <- app_assoc).
    rewrite dict_of_items_snoc, lookup_insert_ne.
    + apply IH. tauto.
    + intros ->. apply Hk. right. apply list_elem_of_here.
Qed.

(** Whatever is found under a key was an item. *)
Lemma dict_of_items_lookup_Some items k v :
  dict_of_items items !! k = Some v → (k, v) ∈ items.
Proof.
  induction items as [|[k' v'] items IH] using rev_ind.
  - unfold dict_of_items. cbn. by rewrite lookup_empty.
  - rewrite dict_of_items_snoc, elem_of_app, lookup_insert.
    case_decide as Hkk.
    + intros [= <-]. subst k'. right. apply list_elem_of_here.
    + intros Hl. left. by apply IH.
Qed.

Lemma dict_of_items_dom items :
  dom (dict_of_items items) = list_to_set items.*1.
Proof.
  induction items as [|[k' v'] items IH] using rev_ind.
  - unfold dict_of_items. cbn. apply dom_empty_L.
  - rewrite dict_of_items_snoc, dom_insert_L, IH, fmap_app, list_to_set_app_L.
    cbn. rewrite (right_id_L ∅ (∪)). apply (comm_L (∪)).
Qed.
End DictOfItems.

(** The comprehension [{key: x for key in keys}]. *)
Lemma dict_of_constant_items {V} (keys : list string) (x : V) (k : string) :
  dict_of_items ((fun key => (key, x)) <$> keys) !! k
  = if decide (k ∈ keys) then Some x else None.
Proof.
  induction keys as [|k' keys IH] using rev_ind.
  - unfold dict_of_items. cbn. rewrite lookup_empty.
    case_decide as Hk; [by apply elem_of_nil in Hk | reflexivity].
  - rewrite fmap_app. cbn [fmap list_fmap].
    rewrite dict_of_items_snoc, lookup_insert, IH.
    destruct (decide (k' = k)) as [->|Hne].
    + rewrite decide_True; [reflexivity|].
      apply elem_of_app. right. apply list_elem_of_here.
    + destruct (decide (k ∈ keys)) as [Hin|Hout].
      * rewrite decide_True; [reflexivity|]. apply elem_of_app. by left.
      * rewrite decide_False; [reflexivity|].
        rewrite elem_of_app, list_elem_of_singleton. intros [?|?]; congruence.
Qed.

(** Each supported model is a key of [MIOT_MAPPING], bound to [_MAPPING]. *)
Lemma MIOT_MAPPING_supported (model : string) :
  model ∈ SUPPORTED_MODELS → MIOT_MAPPING !! model = Some _MAPPING.
Proof.
  intros Hmodel. unfold MIOT_MAPPING.
  rewrite dict_of_constant_items. by rewrite decide_True.
Qed.

Section Projection.
Implicit Types (props pre post : list PropertyResult) (p : PropertyResult).

Lemma project_items_names props :
  ((fun prop => (did prop, projected prop)) <$> props).*1 = did <$> props.
Proof. by rewrite <- list_fmap_compose. Qed.

(** The last result of a batch under a name decides what is stored. *)
Lemma project_lookup_last pre p post :
  did p ∉ did <$> post →
  project (pre ++ p :: post) !! did p = Some (projected p).
Proof.
  intros Hp. unfold project. rewrite fmap_app, fmap_cons.
  apply dict_of_items_lookup_last. by rewrite project_items_names.
Qed.

Lemma project_lookup_None props name :
  name ∉ did <$> props → project props !! name = None.
Proof.
  intros Hn. apply dict_of_items_lookup_None. by rewrite project_items_names.
Qed.

Lemma project_lookup_Some props name v :
  project props !! name = Some v →
  ∃ p, p ∈ props ∧ did p = name ∧ v = projected p.
Proof.
  intros H%dict_of_items_lookup_Some.
  apply list_elem_of_fmap in H as (p & [= -> ->] & Hp). eauto.
Qed.

Lemma project_dom props : dom (project props) = list_to_set (did <$> props).
Proof. unfold project. by rewrite dict_of_items_dom, project_items_names. Qed.

Lemma projected_errored p : code p ≠ 0 → projected p = PyNone.
Proof. intros Hc. unfold projected. by apply Z.eqb_neq in Hc as ->. Qed.

Lemma projected_good p : code p = 0 → projected p = value p.
Proof. intros Hc. unfold projected. by rewrite Hc. Qed.
End Projection.

(** [OperationMode(z)] on an integer. *)
Lemma OperationMode_call_member (m : OperationMode) :
  OperationMode_call (PyInt (OperationMode_value m)) = Ok m.
Proof. by destruct m. Qed.

Lemma OperationMode_call_stranger (z : Z) :
  z ∉ OperationMode_value <$> OperationMode_members →
  OperationMode_call (PyInt z)
  = Raised (ValueError (pretty z +:+ " is not a valid OperationMode")).
Proof.
  intros Hz.
  assert (∀ m, (OperationMode_value m =? z) = false) as Hne.
  { intros m. apply Z.eqb_neq. intros <-. apply Hz.
    apply list_elem_of_fmap. exists m. split; [done|]. destruct m; set_solver. }
  unfold OperationMode_call, py_number, OperationMode_members.
  cbn [mbind option_bind find].
  by rewrite !Hne.
Qed.

(* ===================================================================== *)
(** ** The status projection and its accessors *)
(* ===================================================================== *)

(** What an accessor reads is what the last result under its key projects to. *)
Lemma accessor_key_lookup (pre post : list PropertyResult) (p : PropertyResult)
    (a : accessor) :
  did p ∉ did <$> post →
  key_of a = did p →
  data (mk (project (pre ++ p :: post))) !! key_of a = Some (projected p).
Proof. intros Hlast ->. cbn [data]. by apply project_lookup_last. Qed.

(** C1, counterexample.  A batch whose [fan_level] entry carries the
    error code -4001: the accessor answers the member [Auto] (and logs),
    not the unavailable [None]. *)
Lemma fan_level_errored_reads_auto :
  let batch := [mkProp "fan_level" (-4001) PyNone] in
  getattr Fan_level (mk (project batch))
  = (Ok (OMode Auto),
     [logger_exception "Cannot parse fan level: "
        (ValueError "None is not a valid OperationMode")])
  ∧ getattr Fan_level (mk (project batch)) ≠ unavailable.
Proof. split; [reflexivity | discriminate]. Qed.

(** C1, as amended.  In a status batch, let [p] be the last result under
    its name and let its error code be non-zero.  Every accessor reading
    that name answers [None] without raising and without logging, except
    two: [fan_level] answers [OperationMode.Auto] and logs the parse
    failure, and [power] answers the string "off". *)
Theorem errored_property_accessors (pre post : list PropertyResult)
    (p : PropertyResult) (a : accessor) :
  code p ≠ 0 →
  did p ∉ did <$> post →
  key_of a = did p →
  getattr a (mk (project (pre ++ p :: post)))
  = match a with
    | Fan_level =>
        (Ok (OMode Auto),
         [logger_exception "Cannot parse fan level: "
            (ValueError "None is not a valid OperationMode")])
    | Power => (Ok (OStr "off"), [])
    | _ => unavailable
    end.
Proof.
  intros Hcode Hlast Hkey.
  pose proof (accessor_key_lookup pre post p a Hlast Hkey) as Hl.
  rewrite (projected_errored p Hcode) in Hl.
  destruct a; read_accessor Hl; reflexivity.
Qed.

Lemma errored_property_accessors_witness :
  let p := mkProp "temperature" (-4001) PyNone in
  let post := [mkProp "power" 0 (PyBool true)] in
  code p ≠ 0
  ∧ (did p ∉ did <$> post)
  ∧ key_of Temperature = did p
  ∧ getattr Temperature (mk (project ([] ++ p :: post))) = unavailable.
Proof.
  cbv zeta.
  assert (code (mkProp "temperature" (-4001) PyNone) ≠ 0) as H1 by discriminate.
  assert (did (mkProp "temperature" (-4001) PyNone)
          ∉ did <$> [mkProp "power" 0 (PyBool true)]) as H2 by not_in_names.
  refine (conj H1 (conj H2 (conj eq_refl _))).
  exact (errored_property_accessors [] _ _ Temperature H1 H2 eq_refl).
Defined.

(** C4.  A raw integer outside {1, 2, 3, 4} stored under "fan_level":
    the accessor answers [OperationMode.Auto], logs one record at level
    ERROR carrying the [ValueError], and raises nothing. *)
Theorem fan_level_out_of_range (self : t) (z : Z) :
  data self !! "fan_level" = Some (PyInt z) →
  z ∉ ([1; 2; 3; 4] : list Z) →
  fan_level self
  = (Ok Auto,
     [mkLog ERROR
        ("Cannot parse fan level: " +:+ pretty z +:+ " is not a valid OperationMode")
        (Some (ValueError (pretty z +:+ " is not a valid OperationMode")))]).
Proof.
  intros Hraw Hz. unfold fan_level, dict_getitem. rewrite Hraw.
  by rewrite (OperationMode_call_stranger z Hz).
Qed.

Lemma fan_level_out_of_range_witness :
  let self := mk {[ "fan_level" := PyInt 9 ]} in
  data self !! "fan_level" = Some (PyInt 9)
  ∧ (9 ∉ ([1; 2; 3; 4] : list Z))
  ∧ fan_level self
    = (Ok Auto,
       [mkLog ERROR "Cannot parse fan level: 9 is not a valid OperationMode"
          (Some (ValueError "9 is not a valid OperationMode"))]).
Proof.
  cbv zeta.
  assert (9 ∉ ([1; 2; 3; 4] : list Z)) as Hz by not_in_names.
  refine (conj eq_refl (conj Hz _)).
  exact (fan_level_out_of_range (mk {[ "fan_level" := PyInt 9 ]}) 9 eq_refl Hz).
Defined.

(** C5, counterexample.  A batch whose [fan_level] entry has error code
    0 and value 9: the accessor answers [Auto], whose value is 4. *)
Lemma fan_level_good_nine_reads_auto :
  let batch := [mkProp "fan_level" 0 (PyInt 9)] in
  (getattr Fan_level (mk (project batch))).1 = Ok (OMode Auto)
  ∧ (getattr Fan_level (mk (project batch))).1 ≠ Ok (OVal (PyInt 9))
  ∧ OperationMode_value Auto ≠ 9.
Proof. split; [reflexivity | split; discriminate]. Qed.

(** C5, as amended.  In a status batch, let [p] be the last result under
    its name, with error code 0 and value [V].  Every accessor reading
    that name answers [V] itself, except two: [fan_level] answers the
    member of [OperationMode] whose value is [V] when [V] is one of
    1, 2, 3, 4, and [power] answers "on" or "off" as [V] is true or not. *)
Theorem good_property_accessors (pre post : list PropertyResult)
    (p : PropertyResult) (a : accessor) :
  code p = 0 →
  did p ∉ did <$> post →
  key_of a = did p →
  match a with
  | Fan_level =>
      ∀ m, value p = PyInt (OperationMode_value m) →
           getattr a (mk (project (pre ++ p :: post))) = (Ok (OMode m), [])
  | Power =>
      getattr a (mk (project (pre ++ p :: post)))
      = (Ok (OStr (if truthy (value p) then "on" else "off")), [])
  | _ =>
      getattr a (mk (project (pre ++ p :: post))) = (Ok (OVal (value p)), [])
  end.
Proof.
  intros Hcode Hlast Hkey.
  pose proof (accessor_key_lookup pre post p a Hlast Hkey) as Hl.
  rewrite (projected_good p Hcode) in Hl.
  destruct a; try (read_accessor Hl; reflexivity).
  intros m Hm. read_accessor Hl. rewrite Hm.
  by rewrite OperationMode_call_member.
Qed.

Lemma good_property_accessors_witness :
  let p := mkProp "target_humidity" 0 (PyInt 55) in
  let pre := [mkProp "power" 0 (PyBool true)] in
  let post := [mkProp "temperature" (-4001) PyNone] in
  code p = 0
  ∧ (did p ∉ did <$> post)
  ∧ key_of Target_humidity = did p
  ∧ getattr Target_humidity (mk (project (pre ++ p :: post)))
    = (Ok (OVal (PyInt 55)), []).
Proof.
  cbv zeta.
  assert (did (mkProp "target_humidity" 0 (PyInt 55))
          ∉ did <$> [mkProp "temperature" (-4001) PyNone]) as H2 by not_in_names.
  refine (conj eq_refl (conj H2 (conj eq_refl _))).
  exact (good_property_accessors [mkProp "power" 0 (PyBool true)] _
           (mkProp "target_humidity" 0 (PyInt 55)) Target_humidity
           eq_refl H2 eq_refl).
Defined.

(** C10.  When the last "power" result of a batch carries a non-zero
    error code, [is_on] answers [None] (no bool) and [power] answers
    "off", the very string it answers for a device that reports
    [False]. *)
Theorem power_unavailable_reads_off (pre post : list PropertyResult)
    (p : PropertyResult) :
  did p = "power" →
  code p ≠ 0 →
  "power" ∉ did <$> post →
  is_on (mk (project (pre ++ p :: post))) = Ok PyNone
  ∧ power (mk (project (pre ++ p :: post))) = Ok "off"
  ∧ power (mk (project (pre ++ p :: post)))
    = power (mk (project [mkProp "power" 0 (PyBool false)])).
Proof.
  intros Hname Hcode Hlast.
  assert (project (pre ++ p :: post) !! "power" = Some PyNone) as Hl.
  { rewrite <- Hname, <- (projected_errored p Hcode).
    apply project_lookup_last. by rewrite Hname. }
  unfold power, is_on, dict_getitem. cbn [data]. rewrite Hl.
  repeat split; reflexivity.
Qed.

Lemma power_unavailable_reads_off_witness :
  let p := mkProp "power" (-4001) PyNone in
  let post := [mkProp "fault" 0 (PyInt 0)] in
  did p = "power"
  ∧ code p ≠ 0
  ∧ ("power" ∉ did <$> post)
  ∧ is_on (mk (project ([] ++ p :: post))) = Ok PyNone
  ∧ power (mk (project ([] ++ p :: post))) = Ok "off".
Proof.
  cbv zeta.
  assert (code (mkProp "power" (-4001) PyNone) ≠ 0) as H1 by discriminate.
  assert ("power" ∉ did <$> [mkProp "fault" 0 (PyInt 0)]) as H2 by not_in_names.
  destruct (power_unavailable_reads_off [] [mkProp "fault" 0 (PyInt 0)]
              (mkProp "power" (-4001) PyNone) eq_refl H1 H2) as (Hi & Hp & _).
  exact (conj eq_refl (conj H1 (conj H2 (conj Hi Hp)))).
Defined.

(* ===================================================================== *)
(** ** The mapping table *)
(* ===================================================================== *)

(** Every name a set operation hands to the client is one of
    [facade_names], whatever the device and the arguments. *)
Lemma invoke_names {W Resp : Type} `{!MiotDevice W Resp}
    (op : AirHumidifierJsqs.operation) (s : St W) :
  calls (AirHumidifierJsqs.invoke op s).2 = calls s
  ∨ ∃ name v, name ∈ facade_names
      ∧ calls (AirHumidifierJsqs.invoke op s).2 = calls s ++ [SetProperty name v].
Proof.
  destruct op as [| |h| | | | |]; cbn [AirHumidifierJsqs.invoke];
    try (right; eexists _, _; split;
         [| unfold AirHumidifierJsqs.on, AirHumidifierJsqs.off,
              AirHumidifierJsqs.set_fan_level, AirHumidifierJsqs.set_light,
              AirHumidifierJsqs.set_buzzer, AirHumidifierJsqs.set_overwet_protect,
              AirHumidifierJsqs.set_overwet_protect_on,
              AirHumidifierJsqs.self_set_property;
            by destruct (set_property _ _ _)];
         unfold facade_names; rewrite list_elem_of_In; cbn; tauto).
  unfold AirHumidifierJsqs.set_target_humidity.
  destruct ((h <=? 40) || (h >=? 70)); [by left|].
  right. exists "target_humidity", (PyInt h). split.
  - unfold facade_names. rewrite list_elem_of_In. cbn. tauto.
  - unfold AirHumidifierJsqs.self_set_property. by destruct (set_property _ _ _).
Qed.

(** C6.  For each supported model and each name the facade's set
    operations refer to, the model's table in [MIOT_MAPPING] holds a
    siid/piid pair under that name. *)
Theorem facade_names_resolve (model name : string) :
  model ∈ SUPPORTED_MODELS →
  name ∈ facade_names →
  ∃ (table : gmap string PropertyRef) (ref : PropertyRef),
    MIOT_MAPPING !! model = Some table ∧ table !! name = Some ref.
Proof.
  intros Hmodel Hname. exists _MAPPING.
  rewrite (MIOT_MAPPING_supported model Hmodel).
  unfold facade_names in Hname.
  repeat (apply elem_of_cons in Hname as [->|Hname];
          [eexists; split; [reflexivity | vm_compute; reflexivity]|]).
  by apply elem_of_nil in Hname.
Qed.

Lemma facade_names_resolve_witness :
  "deerma.humidifier.jsq2g" ∈ SUPPORTED_MODELS
  ∧ "overwet_protect_on" ∈ facade_names
  ∧ ∃ (table : gmap string PropertyRef) (ref : PropertyRef),
      MIOT_MAPPING !! "deerma.humidifier.jsq2g" = Some table
      ∧ table !! "overwet_protect_on" = Some ref.
Proof.
  assert ("deerma.humidifier.jsq2g" ∈ SUPPORTED_MODELS) as H1
    by (rewrite list_elem_of_In; cbn; tauto).
  assert ("overwet_protect_on" ∈ facade_names) as H2
    by (rewrite list_elem_of_In; cbn; tauto).
  exact (conj H1 (conj H2 (facade_names_resolve _ _ H1 H2))).
Defined.

(** C9.  The display of [_MAPPING] has 18 items and names
    "overtop_humidity" in two of them (piid 7, then piid 8); the table
    built from it has 17 entries and one for "overtop_humidity", which
    resolves to siid 7, piid 8.  No name of the table resolves to siid 7,
    piid 7, the key of no accessor does, and for either model a status
    request, which asks for the entries of the table, never asks for it. *)
Theorem overtop_humidity_keeps_last :
  length _MAPPING_items = 18%nat
  ∧ filter (fun item => item.1 = "overtop_humidity") _MAPPING_items
    = [("overtop_humidity", mkRef 7 7); ("overtop_humidity", mkRef 7 8)]
  ∧ size _MAPPING = 17%nat
  ∧ filter (fun item => item.1 = "overtop_humidity") (status_request _MAPPING)
    = [("overtop_humidity", mkRef 7 8)]
  ∧ _MAPPING !! "overtop_humidity" = Some (mkRef 7 8)
  ∧ map_Forall (fun _ ref => ref ≠ mkRef 7 7) _MAPPING
  ∧ Forall (fun a => _MAPPING !! key_of a ≠ Some (mkRef 7 7)) accessors
  ∧ Forall (fun model =>
      ∃ table, MIOT_MAPPING !! model = Some table
               ∧ mkRef 7 7 ∉ (status_request table).*2) SUPPORTED_MODELS.
Proof.
  assert (mkRef 7 7 ∉ (status_request _MAPPING).*2) as Hreq.
  { apply (bool_decide_unpack _). vm_compute. reflexivity. }
  split; [reflexivity|].
  split; [vm_compute; reflexivity|].
  split; [vm_compute; reflexivity|].
  split; [vm_compute; reflexivity|].
  split; [vm_compute; reflexivity|].
  split; [apply (bool_decide_unpack _); vm_compute; reflexivity|].
  split; [apply (bool_decide_unpack _); vm_compute; reflexivity|].
  apply Forall_forall. intros model Hmodel. exists _MAPPING.
  split; [by apply MIOT_MAPPING_supported | exact Hreq].
Qed.

(* ===================================================================== *)
(** ** The facade *)
(* ===================================================================== *)

(** An accessor whose key is stored answers without raising. *)
Lemma getattr_present_is_ok (self : t) (a : accessor) :
  is_Some (data self !! key_of a) → is_ok (getattr a self).1 = true.
Proof.
  intros [v Hv].
  destruct a; read_accessor Hv; try reflexivity.
  unfold OperationMode_call.
  by destruct (py_number v ≫= _).
Qed.

Section Facade.
Context {W Resp : Type} `{!MiotDevice W Resp}.

Lemma self_set_property_delegates (k : string) (v : pyval) :
  delegates_once (self_set_property k v) k v.
Proof.
  intros s. unfold self_set_property.
  by destruct (set_property k v (world s)).
Qed.

Lemma set_target_humidity_inside (h : Z) :
  40 < h < 70 →
  set_target_humidity h = self_set_property "target_humidity" (PyInt h).
Proof.
  intros Hh. unfold set_target_humidity.
  destruct (Z.leb_spec h 40); [lia|].
  destruct (Z.geb_spec h 70); [lia|]. reflexivity.
Qed.

Lemma set_target_humidity_outside (h : Z) :
  h ≤ 40 ∨ 70 ≤ h →
  set_target_humidity h
  = raise (ValueError ("Invalid target humidity: " +:+ pretty h
                       +:+ ". Must be between 40 and 70")).
Proof.
  intros Hh. unfold set_target_humidity.
  destruct (Z.leb_spec h 40); [reflexivity|].
  destruct (Z.geb_spec h 70); [reflexivity|lia].
Qed.

(** C2.  [set_target_humidity(39)] and [set_target_humidity(71)] raise
    [ValueError] and make no call on the client;
    [set_target_humidity(55)] raises nothing of its own and makes one
    call, [set_property("target_humidity", 55)], whose answer it hands
    back. *)
Theorem set_target_humidity_39_71_55 :
  fails_before_client (set_target_humidity 39)
    (ValueError "Invalid target humidity: 39. Must be between 40 and 70")
  ∧ fails_before_client (set_target_humidity 71)
      (ValueError "Invalid target humidity: 71. Must be between 40 and 70")
  ∧ delegates_once (set_target_humidity 55) "target_humidity" (PyInt 55).
Proof.
  split; [|split].
  - intros s. reflexivity.
  - intros s. reflexivity.
  - rewrite set_target_humidity_inside by lia. apply self_set_property_delegates.
Qed.

(** C3, as amended.  Every integer strictly between 40 and 70 passes
    the check and is handed to the client in one call
    [set_property("target_humidity", humidity)]; every integer below 40
    or above 70 raises a [ValueError] whose message cites 40 and 70, and
    no call is made on the client. *)
Theorem set_target_humidity_domain (humidity : Z) :
  humidity ≠ 40 →
  humidity ≠ 70 →
  if bool_decide (40 < humidity < 70)
  then delegates_once (set_target_humidity humidity)
         "target_humidity" (PyInt humidity)
  else fails_before_client (set_target_humidity humidity)
         (ValueError ("Invalid target humidity: " +:+ pretty humidity
                      +:+ ". Must be between 40 and 70")).
Proof.
  intros H40 H70. case_bool_decide as Hin.
  - rewrite set_target_humidity_inside by done. apply self_set_property_delegates.
  - rewrite set_target_humidity_outside by lia. intros s. reflexivity.
Qed.

(** The two ends themselves are turned away as well. *)
Lemma set_target_humidity_ends :
  fails_before_client (set_target_humidity 40)
    (ValueError "Invalid target humidity: 40. Must be between 40 and 70")
  ∧ fails_before_client (set_target_humidity 70)
      (ValueError "Invalid target humidity: 70. Must be between 40 and 70").
Proof. split; intros s; reflexivity. Qed.

(** C8.  Each set operation of the facade makes one call on the client,
    for its own name and with the argument unchanged, and answers what
    the client answers, be it a result or an exception. *)
Theorem set_operations_delegate :
  delegates_once on "power" (PyBool true)
  ∧ delegates_once off "power" (PyBool false)
  ∧ (∀ light, delegates_once (set_light light) "led_light" (PyBool light))
  ∧ (∀ buzzer, delegates_once (set_buzzer buzzer) "buzzer" (PyBool buzzer))
  ∧ (∀ overwet,
       delegates_once (set_overwet_protect overwet)
         "overwet_protect" (PyBool overwet))
  ∧ (∀ overwet_protect_on,
       delegates_once (set_overwet_protect_on overwet_protect_on)
         "overwet_protect_on" (PyBool overwet_protect_on))
  ∧ (∀ fan_level,
       delegates_once (set_fan_level fan_level)
         "fan_level" (PyInt (OperationMode_value fan_level))).
Proof. repeat split; intros; apply self_set_property_delegates. Qed.


End Facade.

(** C3, counterexample.  75 lies in [40, 80), yet on the simulated
    device [set_target_humidity(75)] raises and no call is made. *)
Lemma set_target_humidity_75_rejected :
  40 ≤ 75 < 80
  ∧ set_target_humidity 75 SimDevice.start
    = (Raised (ValueError "Invalid target humidity: 75. Must be between 40 and 70"),
       SimDevice.start)
  ∧ calls (set_target_humidity 75 SimDevice.start).2 = [].
Proof. split; [lia|]. split; reflexivity. Qed.

Lemma set_target_humidity_domain_witness :
  55 ≠ 40
  ∧ 55 ≠ 70
  ∧ delegates_once (W := SimDevice.world) (set_target_humidity 55)
      "target_humidity" (PyInt 55).
Proof.
  assert (55 ≠ 40) as H40 by discriminate.
  assert (55 ≠ 70) as H70 by discriminate.
  exact (conj H40 (conj H70
           (set_target_humidity_domain (W := SimDevice.world) 55 H40 H70))).
Defined.

(* ===================================================================== *)
(** ** More on the accessors and the projection *)
(* ===================================================================== *)

(** X1.  An accessor whose key the status data lacks: [is_on], [power],
    [error] and [fan_level] subscript the dict and raise [KeyError] for
    the key; the twelve others use [get] and answer [None].  Nothing is
    logged. *)
Theorem accessor_missing_key (self : t) (a : accessor) :
  data self !! key_of a = None →
  getattr a self
  = match a with
    | Is_on | Power | Error | Fan_level => (Raised (KeyError (key_of a)), [])
    | _ => unavailable
    end.
Proof.
  intros Hnone. destruct a; read_accessor Hnone; reflexivity.
Qed.

Lemma accessor_missing_key_witness :
  data (mk ∅) !! key_of Fan_level = None
  ∧ getattr Fan_level (mk ∅) = (Raised (KeyError "fan_level"), []).
Proof.
  exact (conj eq_refl (accessor_missing_key (mk ∅) Fan_level eq_refl)).
Defined.

Lemma OperationMode_call_number (v : pyval) (m : OperationMode) :
  py_number v = Some (OperationMode_value m) → OperationMode_call v = Ok m.
Proof.
  intros Hv. unfold OperationMode_call. rewrite Hv. by destruct m.
Qed.

Lemma OperationMode_call_no_number (v : pyval) :
  (∀ m, py_number v ≠ Some (OperationMode_value m)) →
  OperationMode_call v
  = Raised (ValueError (py_repr v +:+ " is not a valid OperationMode")).
Proof.
  intros Hv. unfold OperationMode_call.
  destruct (py_number v) as [z|] eqn:Hz; [|reflexivity].
  assert (∀ m, (OperationMode_value m =? z) = false) as Hne.
  { intros m. apply Z.eqb_neq. intros <-. by apply (Hv m). }
  unfold OperationMode_members. cbn [mbind option_bind find].
  by rewrite !Hne.
Qed.

(** X2.  [fan_level] on any stored raw value, [None] and bools included.
    It never raises.  When the value equals, as a number, the value of
    a member ([True] counts as 1), it answers that member and logs
    nothing; otherwise it answers [Auto] and logs one record that
    carries the [ValueError] naming the raw value. *)
Theorem fan_level_present (self : t) (v : pyval) :
  data self !! "fan_level" = Some v →
  (∀ m, py_number v = Some (OperationMode_value m) →
        fan_level self = (Ok m, []))
  ∧ ((∀ m, py_number v ≠ Some (OperationMode_value m)) →
     fan_level self
     = (Ok Auto,
        [logger_exception "Cannot parse fan level: "
           (ValueError (py_repr v +:+ " is not a valid OperationMode"))])).
Proof.
  intros Hraw. unfold fan_level, dict_getitem. rewrite Hraw. split.
  - intros m Hm. by rewrite (OperationMode_call_number v m Hm).
  - intros Hno. by rewrite (OperationMode_call_no_number v Hno).
Qed.

Lemma fan_level_present_witness :
  let self := mk {[ "fan_level" := PyBool true ]} in
  data self !! "fan_level" = Some (PyBool true)
  ∧ fan_level self = (Ok Low, []).
Proof.
  cbv zeta. split; [reflexivity|].
  exact (proj1 (fan_level_present (mk {[ "fan_level" := PyBool true ]})
                  (PyBool true) eq_refl) Low eq_refl).
Defined.

Lemma project_lookup_NoDup (props : list PropertyResult) (p : PropertyResult) :
  NoDup (did <$> props) → p ∈ props →
  project props !! did p = Some (projected p).
Proof.
  intros Hnd Hp.
  apply list_elem_of_split in Hp as (pre & post & ->).
  apply project_lookup_last.
  rewrite fmap_app, fmap_cons in Hnd.
  apply NoDup_app in Hnd as (_ & _ & Hnd).
  by apply NoDup_cons in Hnd as [Hnotin _].
Qed.

(** X3.  The projection goes by name, not by position: two batches
    that hold the same results in a different order, each name once,
    project to the same status data. *)
Theorem project_permutation (batch1 batch2 : list PropertyResult) :
  NoDup (did <$> batch1) →
  batch1 ≡ₚ batch2 →
  project batch1 = project batch2.
Proof.
  intros Hnd Hperm.
  assert (NoDup (did <$> batch2)) as Hnd2 by (by rewrite <- Hperm).
  apply map_eq. intros name.
  destruct (decide (name ∈ did <$> batch1)) as [Hin|Hout].
  - apply list_elem_of_fmap in Hin as (p & -> & Hp).
    rewrite (project_lookup_NoDup batch1 p Hnd Hp).
    symmetry. apply project_lookup_NoDup; [done|]. by rewrite <- Hperm.
  - rewrite (project_lookup_None batch1 name Hout).
    symmetry. apply project_lookup_None. by rewrite <- Hperm.
Qed.

Lemma project_permutation_witness :
  let a := mkProp "power" 0 (PyBool true) in
  let b := mkProp "temperature" (-4001) PyNone in
  NoDup (did <$> [a; b])
  ∧ [a; b] ≡ₚ [b; a]
  ∧ project [a; b] = project [b; a].
Proof.
  cbv zeta.
  assert (NoDup (did <$> [mkProp "power" 0 (PyBool true);
                          mkProp "temperature" (-4001) PyNone])) as Hnd.
  { cbn. apply NoDup_cons. split; [not_in_names|].
    apply NoDup_cons. split; [apply not_elem_of_nil | apply NoDup_nil_2]. }
  pose proof (Permutation_swap (mkProp "temperature" (-4001) PyNone)
                (mkProp "power" 0 (PyBool true)) []) as Hperm.
  exact (conj Hnd (conj Hperm (project_permutation _ _ Hnd Hperm))).
Defined.

(** X4.  A reading is stored as [None] only when its result is errored
    or the device itself sent [None] with code 0: a real reading that
    is false in Python, such as 0 or [False], is stored as itself. *)
Theorem project_none_iff (pre post : list PropertyResult) (p : PropertyResult) :
  did p ∉ did <$> post →
  project (pre ++ p :: post) !! did p = Some PyNone
  ↔ code p ≠ 0 ∨ value p = PyNone.
Proof.
  intros Hlast. rewrite (project_lookup_last pre p post Hlast).
  unfold projected. destruct (Z.eqb_spec (code p) 0) as [Hc|Hc]; split.
  - intros [= Hv]. by right.
  - intros [Hne | ->]; [done | reflexivity].
  - intros _. by left.
  - reflexivity.
Qed.

Lemma project_none_iff_witness :
  let p := mkProp "relative_humidity" 0 (PyInt 0) in
  (did p ∉ did <$> ([] : list PropertyResult))
  ∧ project ([] ++ p :: []) !! did p ≠ Some PyNone.
Proof.
  cbv zeta.
  assert (did (mkProp "relative_humidity" 0 (PyInt 0))
          ∉ did <$> ([] : list PropertyResult)) as Hlast
    by apply not_elem_of_nil.
  split; [exact Hlast|].
  intros Hnone.
  destruct (proj1 (project_none_iff [] []
                     (mkProp "relative_humidity" 0 (PyInt 0)) Hlast) Hnone)
    as [Hc | Hv]; [by apply Hc | discriminate Hv].
Defined.

(* ===================================================================== *)
(** ** More on the facade *)
(* ===================================================================== *)

Section FacadeCalls.
Context {W Resp : Type} `{!MiotDevice W Resp}.

Lemma self_set_property_calls (k : string) (v : pyval) (s : St W) :
  calls (self_set_property k v s).2 = calls s ++ [SetProperty k v].
Proof. apply self_set_property_delegates. Qed.

Lemma self_set_property_result (k : string) (v : pyval) (s : St W) :
  (self_set_property k v s).1 = (set_property k v (world s)).1.
Proof. apply self_set_property_delegates. Qed.

(** X5.  Whatever the operation, its arguments and the device, a set
    operation makes no call on the client or exactly one, a
    [set_property] whose name the table holds and whose value has the
    type and range the table declares for it: a bool for the switches,
    1..4 for "fan_level", and for "target_humidity" an integer strictly
    between 40 and 70. *)
Theorem invoke_sends_sendable (op : operation) (s : St W) :
  calls (invoke op s).2 = calls s
  ∨ ∃ name v,
      calls (invoke op s).2 = calls s ++ [SetProperty name v]
      ∧ sendable name v
      ∧ is_Some (_MAPPING !! name).
Proof.
  destruct op as [| |h|m|b|b|b|b]; cbn [invoke].
  3: {
    destruct (decide (40 < h < 70)) as [Hin|Hout].
    - right. exists "target_humidity", (PyInt h).
      rewrite (set_target_humidity_inside h Hin).
      split; [apply self_set_property_calls|].
      split; [right; by split | eexists; vm_compute; reflexivity].
    - left. rewrite set_target_humidity_outside by lia. reflexivity. }
  all: right; eexists _, _;
    (split; [apply self_set_property_calls|]);
    (split; [| eexists; vm_compute; reflexivity]); cbn [sendable].
  3: { left. split; [reflexivity | destruct m; cbn; lia]. }
  all: rewrite list_elem_of_In; cbn; tauto.
Qed.

(** X6.  Where an exception of a set operation comes from.  Either it
    is the [ValueError] of [set_target_humidity] for a humidity of at
    most 40 or at least 70, raised with the world and the record of
    calls untouched, or it is the very exception the client raised in
    the one call the operation made. *)
Theorem invoke_raises_provenance (op : operation) (s : St W) (e : PyExc) :
  (invoke op s).1 = Raised e →
  (∃ h, op = Op_set_target_humidity h
        ∧ (h ≤ 40 ∨ 70 ≤ h)
        ∧ (invoke op s).2 = s
        ∧ e = ValueError ("Invalid target humidity: " +:+ pretty h
                          +:+ ". Must be between 40 and 70"))
  ∨ (∃ name v,
        (set_property name v (world s)).1 = Raised e
        ∧ calls (invoke op s).2 = calls s ++ [SetProperty name v]).
Proof.
  destruct op as [| |h|m|b|b|b|b]; cbn [invoke]; intros Hraised.
  3: {
    destruct (decide (40 < h < 70)) as [Hin|Hout].
    - right. exists "target_humidity", (PyInt h).
      rewrite (set_target_humidity_inside h Hin) in *.
      rewrite self_set_property_result in Hraised.
      split; [done | apply self_set_property_calls].
    - left. exists h.
      rewrite set_target_humidity_outside in * by lia.
      cbn in Hraised. injection Hraised as <-.
      split; [reflexivity|]. split; [lia|]. split; reflexivity. }
  all: right; eexists _, _;
    (split; [| apply self_set_property_calls]);
    by rewrite <- self_set_property_result.
Qed.

End FacadeCalls.

Lemma invoke_raises_provenance_witness :
  (invoke (Op_set_target_humidity 39) SimDevice.start).1
  = Raised (ValueError "Invalid target humidity: 39. Must be between 40 and 70")
  ∧ ((∃ h, Op_set_target_humidity 39 = Op_set_target_humidity h
           ∧ (h ≤ 40 ∨ 70 ≤ h)
           ∧ (invoke (Op_set_target_humidity 39) SimDevice.start).2
             = SimDevice.start
           ∧ ValueError "Invalid target humidity: 39. Must be between 40 and 70"
             = ValueError ("Invalid target humidity: " +:+ pretty h
                           +:+ ". Must be between 40 and 70"))
     ∨ (∃ name v,
           (set_property name v (world SimDevice.start)).1
           = Raised (ValueError
                       "Invalid target humidity: 39. Must be between 40 and 70")
           ∧ calls (invoke (Op_set_target_humidity 39) SimDevice.start).2
             = calls SimDevice.start ++ [SetProperty name v])).
Proof.
  exact (conj eq_refl
           (invoke_raises_provenance (W := SimDevice.world)
              (Op_set_target_humidity 39) SimDevice.start _ eq_refl)).
Defined.

(* ===================================================================== *)
(** ** More on the mapping table *)
(* ===================================================================== *)

Lemma accessor_key_in_items (a : accessor) : key_of a ∈ _MAPPING_items.*1.
Proof. destruct a; rewrite list_elem_of_In; cbn; tauto. Qed.

(** X7.  A batch that answers every name of the table gives a status
    on which no accessor raises, whatever the error codes and values in
    it. *)
Theorem full_batch_accessors_total (batch : list PropertyResult) (a : accessor) :
  Forall (fun name => name ∈ did <$> batch) _MAPPING_items.*1 →
  is_ok (getattr a (mk (project batch))).1 = true.
Proof.
  intros Hfull. apply getattr_present_is_ok. cbn [data].
  apply elem_of_dom. rewrite project_dom. apply elem_of_list_to_set.
  rewrite Forall_forall in Hfull. apply Hfull, accessor_key_in_items.
Qed.

Lemma full_batch_accessors_total_witness :
  let batch := (fun name => mkProp name (-4001) PyNone) <$> _MAPPING_items.*1 in
  Forall (fun name => name ∈ did <$> batch) _MAPPING_items.*1
  ∧ is_ok (getattr Fan_level (mk (project batch))).1 = true.
Proof.
  cbv zeta.
  assert (Forall
            (fun name =>
               name ∈ did <$> ((fun name => mkProp name (-4001) PyNone)
                               <$> _MAPPING_items.*1))
            _MAPPING_items.*1) as Hfull.
  { apply (bool_decide_unpack _). by vm_compute. }
  exact (conj Hfull (full_batch_accessors_total _ Fan_level Hfull)).
Defined.

(** X8.  The table against the accessors: the key of every accessor is
    a name of the table, and the names of the table no accessor reads
    are "status" and "mode", no others. *)
Theorem table_covers_accessors :
  (∀ a, is_Some (_MAPPING !! key_of a))
  ∧ (∀ name, is_Some (_MAPPING !! name) →
       (name ∉ key_of <$> accessors ↔ name ∈ ["status"; "mode"])).
Proof.
  split.
  - intros a. destruct a; eexists; vm_compute; reflexivity.
  - intros name [ref Href]. apply elem_of_map_to_list in Href.
    assert (Forall (fun item : string * PropertyRef =>
                      item.1 ∉ key_of <$> accessors ↔ item.1 ∈ ["status"; "mode"])
                   (map_to_list _MAPPING)) as Hall.
    { apply (bool_decide_unpack _). by vm_compute. }
    rewrite Forall_forall in Hall. exact (Hall (name, ref) Href).
Qed.

(** X9.  No two names of the table share a siid/piid pair: the table
    is one to one. *)
Theorem table_addresses_distinct (name1 name2 : string) (ref : PropertyRef) :
  _MAPPING !! name1 = Some ref →
  _MAPPING !! name2 = Some ref →
  name1 = name2.
Proof.
  intros H1%elem_of_map_to_list H2%elem_of_map_to_list.
  assert (Forall (fun x : string * PropertyRef =>
            Forall (fun y : string * PropertyRef => x.2 = y.2 → x.1 = y.1)
                   (map_to_list _MAPPING))
          (map_to_list _MAPPING)) as Hall.
  { apply (bool_decide_unpack _). by vm_compute. }
  rewrite Forall_forall in Hall. specialize (Hall _ H1).
  rewrite Forall_forall in Hall. exact (Hall _ H2 eq_refl).
Qed.

Lemma table_addresses_distinct_witness :
  _MAPPING !! "status" = Some (mkRef 2 7)
  ∧ "status" = "status".
Proof.
  assert (_MAPPING !! "status" = Some (mkRef 2 7)) as H by (by vm_compute).
  exact (conj H (table_addresses_distinct "status" "status" (mkRef 2 7) H H)).
Defined.

(** X10.  [MIOT_MAPPING] holds a table for the supported models and for
    no other model string, and the table is the one [_MAPPING] for each
    of them. *)
Theorem MIOT_MAPPING_lookup (model : string) (table : gmap string PropertyRef) :
  MIOT_MAPPING !! model = Some table
  ↔ model ∈ SUPPORTED_MODELS ∧ table = _MAPPING.
Proof.
  unfold MIOT_MAPPING. rewrite dict_of_constant_items.
  case_decide as Hm; split.
  - intros [= <-]. by split.
  - by intros [_ ->].
  - discriminate.
  - by intros [? _].
Qed.

(* ===================================================================== *)
(** ** miio/__init__.py: the deprecation shim *)
(* ===================================================================== *)

Lemma startswith_spec (s p : string) :
  MiioInit.startswith s p = true ↔ ∃ rest, s = p +:+ rest.
Proof.
  revert s. induction p as [|c p IH]; intros s.
  - destruct s as [|d s]; cbn; (split; [intros _; by eexists | done]).
  - destruct s as [|d s]; cbn.
    + split; [done | intros [rest Hrest]; discriminate Hrest].
    + rewrite andb_true_iff, bool_decide_eq_true, IH. split.
      * intros [-> [rest ->]]. by exists rest.
      * intros [rest [= -> ->]]. split; [done | by exists rest].
Qed.

(** [str_contains] is Python's [in] on strings: the needle occurs
    somewhere in the hay. *)
Lemma str_contains_spec (needle hay : string) :
  MiioInit.str_contains needle hay = true
  ↔ ∃ before after, hay = before +:+ needle +:+ after.
Proof.
  induction hay as [|c hay IH]; cbn [MiioInit.str_contains];
    rewrite orb_true_iff, startswith_spec.
  - split.
    + intros [[rest Hrest] | ?]; [|done]. by exists "", rest.
    + intros (before & after & Hhay). left.
      destruct before; [by exists after | discriminate Hhay].
  - rewrite IH. split.
    + intros [[rest Hrest] | (before & after & ->)].
      * by exists "", rest.
      * by exists (String c before), after.
    + intros (before & after & Hhay). destruct before as [|d before].
      * left. by exists after.
      * right. injection Hhay as -> ->. by exists before, after.
Qed.

Lemma deprecated_module_mapping_lookup (globals : gmap string MiioInit.PyObject)
    (name : string) (o : MiioInit.PyObject) :
  MiioInit.deprecated_module_mapping globals !! name = Some o
  ↔ globals !! name = Some o
    ∧ MiioInit.str_contains "miio.integrations" (MiioInit.obj_str o) = true.
Proof.
  unfold MiioInit.deprecated_module_mapping.
  rewrite map_lookup_filter_Some. cbn [fst].
  unfold MiioInit._is_miio_integration. split.
  - intros [Hg Hint]. rewrite Hg in Hint. cbn in Hint. split; [done|congruence].
  - intros [Hg Hint]. rewrite Hg. cbn. split; [done|congruence].
Qed.

(** X11.  For a name that is not bound in the module's globals, which
    is when Python calls a module's [__getattr__], the shim raises
    [AttributeError] for the name and warns of nothing. *)
Theorem getattr_unbound (globals : gmap string MiioInit.PyObject) (name : string) :
  globals !! name = None →
  MiioInit.__getattr__ globals name = (MiioInit.AttributeError name, []).
Proof.
  intros Hnone. unfold MiioInit.__getattr__.
  destruct (MiioInit.deprecated_module_mapping globals !! name) as [o|] eqn:Hm;
    [|reflexivity].
  apply deprecated_module_mapping_lookup in Hm as [Hg _]. congruence.
Qed.

Lemma getattr_unbound_witness :
  let globals : gmap string MiioInit.PyObject :=
    {[ "Device" := MiioInit.mkObj "<class 'miio.device.Device'>" true (Some "Device") ]} in
  globals !! "AirPurifier" = None
  ∧ MiioInit.__getattr__ globals "AirPurifier"
    = (MiioInit.AttributeError "AirPurifier", []).
Proof.
  cbv zeta. split; [reflexivity|].
  apply getattr_unbound. reflexivity.
Defined.

(** X12.  When the shim returns.  It returns [o] exactly when [name] is
    bound in the globals to an object whose [str] contains
    "miio.integrations", which is true in Python and has a [__name__],
    and [o] is what the globals bind to that [__name__]; it has then
    warned once, of [name] and that object. *)
Theorem getattr_returns_iff (globals : gmap string MiioInit.PyObject)
    (name : string) (o : MiioInit.PyObject)
    (warned : list MiioInit.DeprecationWarning) :
  MiioInit.__getattr__ globals name = (MiioInit.Returned o, warned)
  ↔ ∃ new_module n,
      globals !! name = Some new_module
      ∧ MiioInit.str_contains "miio.integrations" (MiioInit.obj_str new_module) = true
      ∧ MiioInit.obj_bool new_module = true
      ∧ MiioInit.obj_name new_module = Some n
      ∧ globals !! n = Some o
      ∧ warned = [MiioInit.mkWarn name new_module].
Proof.
  unfold MiioInit.__getattr__. split.
  - destruct (MiioInit.deprecated_module_mapping globals !! name)
      as [new_module|] eqn:Hm; [|discriminate].
    apply deprecated_module_mapping_lookup in Hm as [Hg Hint].
    destruct (MiioInit.obj_bool new_module) eqn:Hb; [|discriminate].
    destruct (MiioInit.obj_name new_module) as [n|] eqn:Hn; [|discriminate].
    destruct (globals !! n) as [o'|] eqn:Ho; [|discriminate].
    intros [= -> <-]. by exists new_module, n.
  - intros (new_module & n & Hg & Hint & Hb & Hn & Ho & ->).
    rewrite (proj2 (deprecated_module_mapping_lookup globals name new_module)
               (conj Hg Hint)).
    by rewrite Hb, Hn, Ho.
Qed.

(** X13.  A truthy integration object bound under a name other than
    its [__name__], where the globals bind nothing to that [__name__]
    (a submodule bound as "integrations" has the dotted
    "miio.integrations" as [__name__]): the shim warns and then fails
    with the [KeyError] of [globals()[..]]. *)
Theorem getattr_alias_key_error (globals : gmap string MiioInit.PyObject)
    (name n : string) (new_module : MiioInit.PyObject) :
  globals !! name = Some new_module →
  MiioInit.str_contains "miio.integrations" (MiioInit.obj_str new_module) = true →
  MiioInit.obj_bool new_module = true →
  MiioInit.obj_name new_module = Some n →
  globals !! n = None →
  MiioInit.__getattr__ globals name
  = (MiioInit.GlobalsKeyError n, [MiioInit.mkWarn name new_module]).
Proof.
  intros Hg Hint Hb Hn Ho. unfold MiioInit.__getattr__.
  rewrite (proj2 (deprecated_module_mapping_lookup globals name new_module)
             (conj Hg Hint)).
  by rewrite Hb, Hn, Ho.
Qed.

Lemma getattr_alias_key_error_witness :
  let pkg := MiioInit.mkObj "<module 'miio.integrations' from 'miio/integrations/__init__.py'>"
               true (Some "miio.integrations") in
  let globals : gmap string MiioInit.PyObject := {[ "integrations" := pkg ]} in
  globals !! "integrations" = Some pkg
  ∧ MiioInit.str_contains "miio.integrations" (MiioInit.obj_str pkg) = true
  ∧ MiioInit.__getattr__ globals "integrations"
    = (MiioInit.GlobalsKeyError "miio.integrations",
       [MiioInit.mkWarn "integrations" pkg]).
Proof.
  cbv zeta. split; [reflexivity|]. split; [reflexivity|].
  apply getattr_alias_key_error; reflexivity.
Defined.

(* ===================================================================== *)
(** ** miio/exceptions.py: the class hierarchy *)
(* ===================================================================== *)

(** [issubclass] on the classes of the module is a partial
    order: every class is a subclass of itself, a subclass of a
    subclass is a subclass, and two classes that are subclasses of each
    other are one class. *)
Lemma issubclass_partial_order :
  (∀ c, MiioExceptions.issubclass c c = true)
  ∧ (∀ c d e,
       MiioExceptions.issubclass c d = true →
       MiioExceptions.issubclass d e = true →
       MiioExceptions.issubclass c e = true)
  ∧ (∀ c d,
       MiioExceptions.issubclass c d = true →
       MiioExceptions.issubclass d c = true →
       c = d).
Proof.
  split; [|split].
  - intros c. by destruct c.
  - intros c d e. destruct c, d; vm_compute; try discriminate;
      destruct e; vm_compute; try discriminate; reflexivity.
  - intros c d. destruct c, d; vm_compute; try discriminate; reflexivity.
Qed.

(** X14.  What each handler catches.  [except DeviceException] catches
    every class of the module but [CloudException] (and not a bare
    [Exception]); [except DeviceError] catches [DeviceError] and
    [RecoverableError] and nothing else; [except CloudException]
    catches [CloudException] alone. *)
Theorem handlers_catch (raised : MiioExceptions.cls) :
  (MiioExceptions.catches MiioExceptions.DeviceException raised = true
   ↔ raised ∉ [MiioExceptions.Exception; MiioExceptions.CloudException])
  ∧ (MiioExceptions.catches MiioExceptions.DeviceError raised = true
     ↔ raised ∈ [MiioExceptions.DeviceError; MiioExceptions.RecoverableError])
  ∧ (MiioExceptions.catches MiioExceptions.CloudException raised = true
     ↔ raised = MiioExceptions.CloudException).
Proof.
  destruct raised; apply (bool_decide_unpack _); by vm_compute.
Qed.

(** X15.  [DeviceError(error)] reads "code" and "message" and nothing
    else: storing any other key in the payload leaves both attributes
    as they were, and a payload without the two keys gives [None] for
    both. *)
Theorem DeviceError_init_frame {V : Type} (none : V) (error : gmap string V)
    (k : string) (v : V) :
  k ≠ "code" →
  k ≠ "message" →
  MiioExceptions.DeviceError_init none (<[k := v]> error)
  = MiioExceptions.DeviceError_init none error
  ∧ MiioExceptions.DeviceError_init none (<[k := v]> ∅)
    = MiioExceptions.mkDeviceError none none.
Proof.
  intros Hc Hm. unfold MiioExceptions.DeviceError_init.
  rewrite !lookup_insert_ne by done. by rewrite !lookup_empty.
Qed.

Lemma DeviceError_init_frame_witness :
  "id" ≠ "code"
  ∧ "id" ≠ "message"
  ∧ MiioExceptions.DeviceError_init PyNone
      (<["id" := PyInt 7]> {[ "code" := PyInt (-4001) ]})
    = MiioExceptions.DeviceError_init PyNone {[ "code" := PyInt (-4001) ]}.
Proof.
  assert ("id" ≠ "code") as Hc by discriminate.
  assert ("id" ≠ "message") as Hm by discriminate.
  exact (conj Hc (conj Hm
           (proj1 (DeviceError_init_frame PyNone {[ "code" := PyInt (-4001) ]}
                     "id" (PyInt 7) Hc Hm)))).
Defined.

(* ===================================================================== *)
(** ** Repeated names in a batch, and the power string *)
(* ===================================================================== *)

Section Shadowing.
Context {V : Type}.
Implicit Types (front back : list (string * V)) (k : string) (v : V).

Lemma dict_of_items_insert_last front back k v :
  k ∉ back.*1 →
  dict_of_items (front ++ (k, v) :: back) = <[k := v]> (dict_of_items (front ++ back)).
Proof.
  induction back as [|[k' v'] back IH] using rev_ind; intros Hk.
  - by rewrite app_nil_r, dict_of_items_snoc.
  - rewrite fmap_app, elem_of_app in Hk. cbn in Hk.
    assert (k ≠ k') as Hne.
    { intros ->. apply Hk. right. apply list_elem_of_here. }
    replace (front ++ (k, v) :: back ++ [(k', v')])
      with ((front ++ (k, v) :: back) ++ [(k', v')]) by (by rewrite <- app_assoc).
    rewrite (app_assoc front back), !dict_of_items_snoc, IH by tauto.
    by apply insert_insert_ne.
Qed.

Lemma dict_of_items_shadowed front back k v :
  k ∈ back.*1 →
  dict_of_items (front ++ (k, v) :: back) = dict_of_items (front ++ back).
Proof.
  induction back as [|[k' v'] back IH] using rev_ind; intros Hk.
  - by apply elem_of_nil in Hk.
  - replace (front ++ (k, v) :: back ++ [(k', v')])
      with ((front ++ (k, v) :: back) ++ [(k', v')]) by (by rewrite <- app_assoc).
    rewrite (app_assoc front back), !dict_of_items_snoc.
    destruct (decide (k ∈ back.*1)) as [Hin|Hout].
    + by rewrite IH.
    + rewrite fmap_app, elem_of_app in Hk. destruct Hk as [?|Hk]; [done|].
      cbn in Hk. apply list_elem_of_singleton in Hk as ->.
      rewrite (dict_of_items_insert_last front back k' v Hout).
      apply insert_insert_eq.
Qed.
End Shadowing.

(** X16.  A result that a later result of the batch repeats the name
    of counts for nothing: the batch projects to the same status data
    with it and without it. *)
Theorem project_shadowed (pre post : list PropertyResult) (p : PropertyResult) :
  did p ∈ did <$> post →
  project (pre ++ p :: post) = project (pre ++ post).
Proof.
  intros Hp. unfold project. rewrite !fmap_app, fmap_cons.
  apply dict_of_items_shadowed. by rewrite project_items_names.
Qed.

Lemma project_shadowed_witness :
  let p := mkProp "temperature" 0 (PyInt 21) in
  let post := [mkProp "temperature" (-4001) PyNone] in
  (did p ∈ did <$> post)
  ∧ project ([] ++ p :: post) = project ([] ++ post).
Proof.
  cbv zeta.
  assert (did (mkProp "temperature" 0 (PyInt 21))
          ∈ did <$> [mkProp "temperature" (-4001) PyNone]) as Hp
    by apply list_elem_of_here.
  exact (conj Hp (project_shadowed [] _ _ Hp)).
Defined.

(** X17.  [power] answers "on" exactly when "power" is stored with a
    value that is true in Python ([True], a non-zero integer), "off"
    exactly when it is stored with a value that is not ([False], 0,
    [None]), and raises, a [KeyError], exactly when it is not stored. *)
Theorem power_on_off (self : t) :
  (power self = Ok "on"
   ↔ ∃ v, data self !! "power" = Some v ∧ truthy v = true)
  ∧ (power self = Ok "off"
     ↔ ∃ v, data self !! "power" = Some v ∧ truthy v = false)
  ∧ (power self = Raised (KeyError "power") ↔ data self !! "power" = None)
  ∧ (power self = Ok "on" ∨ power self = Ok "off"
     ∨ power self = Raised (KeyError "power")).
Proof.
  unfold power, is_on, dict_getitem.
  destruct (data self !! "power") as [v|]; [destruct (truthy v) eqn:Hv|].
  - repeat split; try done; try (by intros; eexists); try (by left);
      intros (v' & [= <-] & Hv'); congruence.
  - repeat split; try done; try (by intros; eexists); try (by right; left);
      intros (v' & [= <-] & Hv'); congruence.
  - repeat split; try done; try (by right; right);
      intros (v' & Hv' & _); discriminate Hv'.
Qed.
